(** * predubuddy: the grade calculator and the record store

    A shallow embedding of [utils/calculations.py] and [data_manager.py].

    - Python numbers are exact rationals ([Q]); binary64 rounding is not
      modelled. Equality of computed numbers is [Qeq] ([==]).
    - A record (a Python [dict]) is a finite map from field names to values.
    - A pandas [DataFrame] is a set of column labels and a list of rows; a
      row that has no entry for a column holds NaN there.
    - A function that receives tables or works on the session state is a
      computation [Py S A]: from the state [S] of the objects it was handed
      to what it returns (or the exception that escapes) and the state of
      those objects when it ends. *)

From Stdlib Require Import QArith Qminmax Lqa ZArith Lia Ascii String.
From stdpp Require Import gmap strings list sorting.

Local Open Scope Z_scope.

(** ** Values *)

(** The Python values that occur in the records and tables: [None], strings,
    numbers, and the three kinds of cell pandas writes into a table
    ([Timestamp] as nanoseconds since 1970-01-01, [NaT], and a weekly
    [Period] as the number of its Monday-to-Sunday week, week 0 holding
    1970-01-01). *)
Inductive value :=
  | VNone
  | VStr (s : string)
  | VNum (q : Q)
  | VTimestamp (ns : Z)
  | VNaT
  | VPeriod (w : Z).

#[global] Instance Q_eq_dec : EqDecision Q.
Proof. solve_decision. Defined.

#[global] Instance value_eq_dec : EqDecision value.
Proof. solve_decision. Defined.

Abbreviation dict := (gmap string value).

(** Python's [a == b] on these values: numbers compare by value, values of
    different kinds are unequal. *)
Definition py_eq (a b : value) : bool :=
  match a, b with
  | VNone, VNone => true
  | VStr s, VStr t => bool_decide (s = t)
  | VNum p, VNum q => Qeq_bool p q
  | VTimestamp s, VTimestamp t => bool_decide (s = t)
  | VPeriod s, VPeriod t => bool_decide (s = t)
  | _, _ => false
  end.

(** [a != b]. *)
Definition py_ne (a b : value) : bool := negb (py_eq a b).

(** [d.get(key)]: [None] when the key is absent. *)
Definition dict_get (d : dict) (key : string) : value := default VNone (d !! key).

(** ** Exceptions and computations *)

(** [Unmodelled] marks a run that leaves the fragment of Python covered here
    (arithmetic on a cell that holds no number, a date column that holds
    one); nothing is stated about such a run. *)
Inductive exn :=
  | KeyError (key : string)
  | IndexError
  | ValueError
  | Unmodelled.

Definition Py (S A : Type) : Type := S → (exn + A) * S.

Definition ret {S A} (a : A) : Py S A := λ s, (inr a, s).

Definition bind {S A B} (m : Py S A) (k : A → Py S B) : Py S B :=
  λ s, match m s with
       | (inr a, s') => k a s'
       | (inl e, s') => (inl e, s')
       end.

(** The current state of the objects the function was handed. *)
Definition get {S} : Py S S := λ s, (inr s, s).

(** An assignment into them. *)
Definition modify {S} (f : S → S) : Py S unit := λ s, (inr tt, f s).

(** A step that touches no object: it returns or raises. *)
Definition lift {S A} (r : exn + A) : Py S A := λ s, (r, s).

(** A call that is handed the first of two objects. *)
Definition on_fst {S T A} (m : Py S A) : Py (S * T) A :=
  λ st, let '(r, s') := m st.1 in (r, (s', st.2)).

Declare Scope py_scope.
Delimit Scope py_scope with py.
Notation "'let*' x ':=' m 'in' k" := (bind m (λ x, k))
  (at level 10, x name, m at level 100, k at level 200) : py_scope.
Notation "m1 ';;;' m2" := (bind m1 (λ _, m2))
  (at level 100, m2 at level 200, right associativity) : py_scope.
Local Open Scope py_scope.

(** ** Tables *)

Record DataFrame := { columns : gset string; rows : list dict }.

#[global] Instance DataFrame_eq_dec : EqDecision DataFrame.
Proof. solve_decision. Defined.

(** [pd.DataFrame(data)] for a list of records: one row per record, the
    columns are the keys that occur in some record. [pd.DataFrame([])] and
    [pd.DataFrame()] have no rows and no columns. *)
Definition pd_DataFrame (data : list dict) : DataFrame :=
  {| columns := ⋃ (dom <$> data); rows := data |}.

(** [pd.DataFrame(columns=labels)]: the labels and no rows. *)
Definition pd_DataFrame_columns (labels : list string) : DataFrame :=
  {| columns := list_to_set labels; rows := [] |}.

(** [df.empty]: some axis has length 0. *)
Definition empty (df : DataFrame) : bool :=
  match rows df with
  | [] => true
  | _ :: _ => bool_decide (columns df = ∅)
  end.

(** [len(df)]. *)
Definition len (df : DataFrame) : Z := Z.of_nat (length (rows df)).

(** A cell is missing for pandas when it holds NaN (no entry), [None] or
    [NaT]. *)
Definition isna (cell : option value) : bool :=
  match cell with
  | None | Some VNone | Some VNaT => true
  | Some _ => false
  end.

(** One cell of [series == v]: a missing cell equals nothing. *)
Definition Series_eq (cell : option value) (v : value) : bool :=
  match cell with
  | Some x => negb (isna cell) && py_eq x v
  | None => false
  end.

(** [df[label]]: the column's cells, top to bottom; [KeyError] when the
    table has no such column. *)
Definition getitem (df : DataFrame) (label : string) : exn + list (option value) :=
  if bool_decide (label ∈ columns df)
  then inr ((λ r : dict, r !! label) <$> rows df)
  else inl (KeyError label).

(** [df[mask]] for the mask [df[label] == v]: the rows whose cell equals
    [v], in order, under the same columns. *)
Definition rows_where (df : DataFrame) (label : string) (v : value) : DataFrame :=
  {| columns := columns df;
     rows := filter (λ r : dict, Series_eq (r !! label) v) (rows df) |}.

(** [df[df[label] == v]]: [df[label]] raises [KeyError] when the table has
    no such column. *)
Definition select_eq (df : DataFrame) (label : string) (v : value) : exn + DataFrame :=
  if bool_decide (label ∈ columns df)
  then inr (rows_where df label v)
  else inl (KeyError label).

(** The number a cell holds, for arithmetic. *)
Definition as_number (cell : option value) : exn + Q :=
  match cell with
  | Some (VNum q) => inr q
  | _ => inl Unmodelled
  end.

(** [series.sum()]: missing cells are skipped, the empty sum is 0. *)
Fixpoint Series_sum (cells : list (option value)) : exn + Q :=
  match cells with
  | [] => inr 0%Q
  | cell :: rest =>
      match Series_sum rest with
      | inl e => inl e
      | inr total =>
          if isna cell then inr total
          else match as_number cell with
               | inr q => inr (q + total)%Q
               | inl e => inl e
               end
      end
  end.

(** [df[label].sum()]. *)
Definition sum_of (df : DataFrame) (label : string) : exn + Q :=
  match getitem df label with
  | inr cells => Series_sum cells
  | inl e => inl e
  end.

(** [df.iloc[0][label]]. *)
Definition iloc0 (df : DataFrame) (label : string) : exn + option value :=
  match rows df with
  | r :: _ => if bool_decide (label ∈ columns df) then inr (r !! label) else inl (KeyError label)
  | [] => inl IndexError
  end.

(** [df[label] = cells]: every row gets its new cell, the label becomes a
    column if it was none. *)
Definition setitem (label : string) (cells : list value) (df : DataFrame) : DataFrame :=
  {| columns := columns df ∪ {[label]};
     rows := zip_with (λ (r : dict) c, <[label := c]> r) (rows df) cells |}.

(** ** utils/calculations.py *)

(** [calculate_carry_percentage(course_code, carry_marks_df)]; the state is
    [carry_marks_df]. *)
Definition calculate_carry_percentage (course_code : value) : Py DataFrame Q :=
  let* carry_marks_df := get in
  if empty carry_marks_df then ret 0%Q else
  let* course_marks := lift (select_eq carry_marks_df "course_code" course_code) in
  if empty course_marks then ret 0%Q else
  let* total_earned := lift (sum_of course_marks "earned") in
  let* total_max := lift (sum_of course_marks "max_possible") in
  if Qeq_bool total_max 0 then ret 0%Q else
  ret ((total_earned / total_max) * 100)%Q.



(** [calculate_current_grade(course_code, carry_marks_df, courses_df)]; the
    state is the pair [(carry_marks_df, courses_df)]. *)
Definition calculate_current_grade (course_code : value) : Py (DataFrame * DataFrame) Q :=
  let* tables := get in
  let carry_marks_df := tables.1 in
  let courses_df := tables.2 in
  let* course_info := lift (select_eq courses_df "code" course_code) in
  if empty course_info then ret 0%Q else
  let* course_marks := lift (select_eq carry_marks_df "course_code" course_code) in
  if empty course_marks then ret 0%Q else
  if bool_decide ("final_contribution" ∈ columns course_marks) then
    lift (sum_of course_marks "final_contribution")
  else
    let* carry_weight := lift (iloc0 course_info "carry_weight") in
    let* carry_percentage := on_fst (calculate_carry_percentage course_code) in
    let* weight := lift (as_number carry_weight) in
    ret ((carry_percentage / 100) * weight)%Q.

(** [get_grade_letter(percentage)]; [percentage >= 90] is [Qle_bool 90
    percentage]. *)
Definition get_grade_letter (percentage : Q) : string :=
  if Qle_bool 90 percentage then "A+"
  else if Qle_bool 85 percentage then "A"
  else if Qle_bool 80 percentage then "A-"
  else if Qle_bool 75 percentage then "B+"
  else if Qle_bool 70 percentage then "B"
  else if Qle_bool 65 percentage then "B-"
  else if Qle_bool 60 percentage then "C+"
  else if Qle_bool 55 percentage then "C"
  else if Qle_bool 50 percentage then "C-"
  else "F".

(** [calculate_completion_rate(assignments_df)]; the state is
    [assignments_df]. *)
Definition calculate_completion_rate : Py DataFrame Q :=
  let* assignments_df := get in
  if empty assignments_df then ret 0%Q else
  let* done_df := lift (select_eq assignments_df "status" (VStr "completed")) in
  let completed := len done_df in
  let total := len assignments_df in
  ret (if 0 <? total then ((inject_Z completed / inject_Z total) * 100)%Q else 0%Q).

(** ** Dates *)

(** The calendar arithmetic of Python's [datetime] module. *)
Definition is_leap (year : Z) : bool :=
  (year mod 4 =? 0) && (negb (year mod 100 =? 0) || (year mod 400 =? 0)).

Definition days_before_year (year : Z) : Z :=
  let y := year - 1 in y * 365 + y / 4 - y / 100 + y / 400.

Definition days_in_month (year month : Z) : Z :=
  if (month =? 2) && is_leap year then 29
  else nth (Z.to_nat month) [-1; 31; 28; 31; 30; 31; 30; 31; 31; 30; 31; 30; 31] 0.

Definition days_before_month (year month : Z) : Z :=
  nth (Z.to_nat month) [-1; 0; 31; 59; 90; 120; 151; 181; 212; 243; 273; 304; 334] 0
  + (if (2 <? month) && is_leap year then 1 else 0).

Definition ymd2ord (year month day : Z) : Z :=
  days_before_year year + days_before_month year month + day.

Record datetime := {
  year : Z; month : Z; day : Z;
  hour : Z; minute : Z; second : Z; microsecond : Z
}.

Definition toordinal (dt : datetime) : Z := ymd2ord (year dt) (month dt) (day dt).

Record timedelta := { days : Z; seconds : Z; microseconds : Z }.

(** [timedelta(days, seconds, microseconds)]: the carries leave
    [0 <= microseconds < 10^6] and [0 <= seconds < 86400], the sign goes to
    [days]. *)
Definition mk_timedelta (d s us : Z) : timedelta :=
  let s1 := s + us / 1000000 in
  {| days := d + s1 / 86400; seconds := s1 mod 86400; microseconds := us mod 1000000 |}.

(** [a - b] on two naive datetimes. *)
Definition datetime_sub (a b : datetime) : timedelta :=
  let secs1 := second a + minute a * 60 + hour a * 3600 in
  let secs2 := second b + minute b * 60 + hour b * 3600 in
  mk_timedelta (toordinal a - toordinal b) (secs1 - secs2) (microsecond a - microsecond b).

(** Microseconds from 0001-01-01 00:00 to [dt], day 1 counted from 1 as
    [toordinal] does. *)
Definition to_microseconds (dt : datetime) : Z :=
  ((toordinal dt * 86400) + second dt + minute dt * 60 + hour dt * 3600) * 1000000
  + microsecond dt.

(** A reader of zero-padded [YYYY-MM-DD] dates, an instance of the two
    library parsers below on the strings both accept. *)
Definition digit (c : ascii) : option Z :=
  let n := Z.of_nat (nat_of_ascii c) - 48 in
  if (0 <=? n) && (n <=? 9) then Some n else None.

Definition parse_iso_date (s : string) : option (Z * Z * Z) :=
  match list_ascii_of_string s with
  | [y1; y2; y3; y4; "-"%char; m1; m2; "-"%char; d1; d2] =>
      match digit y1, digit y2, digit y3, digit y4, digit m1, digit m2, digit d1, digit d2 with
      | Some a, Some b, Some c, Some d, Some e, Some f, Some g, Some h =>
          let y := a * 1000 + b * 100 + c * 10 + d in
          let m := e * 10 + f in
          let dd := g * 10 + h in
          if (1 <=? y) && (1 <=? m) && (m <=? 12) && (1 <=? dd) && (dd <=? days_in_month y m)
          then Some (y, m, dd) else None
      | _, _, _, _, _, _, _, _ => None
      end
  | _ => None
  end.

(** As [datetime.strptime(s, "%Y-%m-%d")]: midnight of the day. *)
Definition strptime_iso (s : string) : option datetime :=
  match parse_iso_date s with
  | Some (y, m, d) =>
      Some {| year := y; month := m; day := d; hour := 0; minute := 0; second := 0; microsecond := 0 |}
  | None => None
  end.

(** As [pd.to_datetime(s)]: the [Timestamp] of that midnight, in
    nanoseconds since 1970-01-01 (ordinal 719163). *)
Definition to_datetime_iso (s : string) : option Z :=
  match parse_iso_date s with
  | Some (y, m, d) => Some ((ymd2ord y m d - 719163) * 86400 * 1000000000)
  | None => None
  end.

Section CalculateDaysUntilDue.

(** [datetime.strptime(s, "%Y-%m-%d")]: [None] when it raises. *)
Variable strptime : string → option datetime.

(** [calculate_days_until_due(due_date_str)], with the reading of the clock
    that [datetime.now()] returns. The bare [except] turns every exception
    of the body into 0. *)
Definition calculate_days_until_due (now : datetime) (due_date_str : string) : Z :=
  match strptime due_date_str with
  | Some due_date =>
      let today := now in
      let delta := datetime_sub due_date today in
      days delta
  | None => 0
  end.

End CalculateDaysUntilDue.

Section GetWeeklyWorkload.

(** [pd.to_datetime] on one string: the [Timestamp] in nanoseconds, [None]
    when it raises. *)
Variable to_datetime_str : string → option Z.

(** [pd.to_datetime(series)]: missing cells become [NaT], strings are
    parsed, timestamps stay. *)
Fixpoint to_datetime (cells : list (option value)) : exn + list value :=
  match cells with
  | [] => inr []
  | cell :: rest =>
      let stamp :=
        if isna cell then inr VNaT
        else match cell with
             | Some (VStr s) =>
                 match to_datetime_str s with
                 | Some ns => inr (VTimestamp ns)
                 | None => inl ValueError
                 end
             | Some (VTimestamp ns) => inr (VTimestamp ns)
             | _ => inl Unmodelled
             end in
      match stamp, to_datetime rest with
      | inr v, inr vs => inr (v :: vs)
      | inl e, _ => inl e
      | _, inl e => inl e
      end
  end.

(** The Monday-to-Sunday week of a timestamp; 1970-01-01 was a Thursday. *)
Definition week_of (ns : Z) : Z := (ns / 86400000000000 + 3) / 7.

(** [series.dt.to_period('W')]. *)
Definition to_period_W (cells : list (option value)) : list value :=
  (λ cell, match cell with
           | Some (VTimestamp ns) => VPeriod (week_of ns)
           | _ => VNaT
           end) <$> cells.

Definition week_of_row (r : dict) : option Z :=
  match r !! "week" with
  | Some (VPeriod w) => Some w
  | _ => None
  end.

Definition count_if (P : dict → bool) (group : list dict) : Q :=
  inject_Z (Z.of_nat (length (filter (λ r, P r) group))).

(** [df.groupby('week').agg({'title': 'count', 'status': lambda x: (x ==
    'pending').sum()}).rename(columns=...).reset_index()]: one row per week
    that occurs, in ascending order; rows whose week is [NaT] are in no
    group. *)
Definition groupby_week_agg (df : DataFrame) : exn + DataFrame :=
  if negb (bool_decide ("week" ∈ columns df)) then inl (KeyError "week") else
  if negb (bool_decide ("title" ∈ columns df)) then inl (KeyError "title") else
  if negb (bool_decide ("status" ∈ columns df)) then inl (KeyError "status") else
  let weeks := merge_sort Z.le (remove_dups (omap week_of_row (rows df))) in
  inr {| columns := list_to_set ["week"; "total_assignments"; "pending_assignments"];
         rows := (λ w,
                   let group := filter (λ r, week_of_row r = Some w) (rows df) in
                   ({[ "week" := VPeriod w;
                       "total_assignments" := VNum (count_if (λ r, negb (isna (r !! "title"))) group);
                       "pending_assignments" :=
                         VNum (count_if (λ r, Series_eq (r !! "status") (VStr "pending")) group) ]} : dict))
                 <$> weeks |}.

(** [get_weekly_workload(assignments_df)]; the state is [assignments_df],
    into which the two column assignments write. *)
Definition get_weekly_workload : Py DataFrame DataFrame :=
  let* assignments_df := get in
  if empty assignments_df then ret (pd_DataFrame []) else
  let* due := lift (getitem assignments_df "due_date") in
  let* stamps := lift (to_datetime due) in
  modify (setitem "due_date" stamps) ;;;
  let* assignments_df := get in
  let* due := lift (getitem assignments_df "due_date") in
  modify (setitem "week" (to_period_W due)) ;;;
  let* assignments_df := get in
  lift (groupby_week_agg assignments_df).

End GetWeeklyWorkload.

(** ** data_manager.py *)

(** [st.session_state] once initialised: the four collections and the
    theme colour. *)
Record session_state := {
  courses : list dict;
  carry_marks : list dict;
  final_exams : list dict;
  assignments : list dict;
  theme_color : string
}.

#[global] Instance session_state_eq_dec : EqDecision session_state.
Proof. solve_decision. Defined.

Definition set_courses (f : list dict → list dict) (st : session_state) : session_state :=
  {| courses := f (courses st); carry_marks := carry_marks st; final_exams := final_exams st;
     assignments := assignments st; theme_color := theme_color st |}.

Definition set_carry_marks (f : list dict → list dict) (st : session_state) : session_state :=
  {| courses := courses st; carry_marks := f (carry_marks st); final_exams := final_exams st;
     assignments := assignments st; theme_color := theme_color st |}.

Definition set_final_exams (f : list dict → list dict) (st : session_state) : session_state :=
  {| courses := courses st; carry_marks := carry_marks st; final_exams := f (final_exams st);
     assignments := assignments st; theme_color := theme_color st |}.

Definition set_assignments (f : list dict → list dict) (st : session_state) : session_state :=
  {| courses := courses st; carry_marks := carry_marks st; final_exams := final_exams st;
     assignments := f (assignments st); theme_color := theme_color st |}.

Definition course (code name : string) (carry_weight exam_weight : Q) : dict :=
  {[ "code" := VStr code; "name" := VStr name;
     "carry_weight" := VNum carry_weight; "exam_weight" := VNum exam_weight ]}.

(** [get_default_courses()]. *)
Definition get_default_courses : list dict :=
  [ course "BSD 1323" "Storytelling & Data Visualization" 60 40;
    course "BSD 2143" "Operational Research" 60 40;
    course "BUM 2413" "Applied Statistics" 60 40;
    course "BUM 2123" "Applied Calculus" 60 40;
    course "BCU 1023" "Programming Technique" 60 40;
    course "ULS 1312" "Spanish A1" 60 40;
    course "UHE 3032" "Introduction to Human Behaviour" 60 40 ].

(** The session before [initialize_session_state] has run: each key may be
    absent. *)
Record raw_session := {
  raw_courses : option (list dict);
  raw_carry_marks : option (list dict);
  raw_final_exams : option (list dict);
  raw_assignments : option (list dict);
  raw_theme_color : option string
}.

(** [initialize_session_state()]: every absent key gets its initial value. *)
Definition initialize_session_state (raw : raw_session) : session_state :=
  {| courses := default get_default_courses (raw_courses raw);
     carry_marks := default [] (raw_carry_marks raw);
     final_exams := default [] (raw_final_exams raw);
     assignments := default [] (raw_assignments raw);
     theme_color := default "#1f77b4" (raw_theme_color raw) |}.

(** The state a new session starts in. *)
Definition initial_session_state : session_state :=
  initialize_session_state
    {| raw_courses := None; raw_carry_marks := None; raw_final_exams := None;
       raw_assignments := None; raw_theme_color := None |}.

(** [get_courses_df()]. *)
Definition get_courses_df : Py session_state DataFrame :=
  let* st := get in
  ret (pd_DataFrame (courses st)).

(** [get_carry_marks_df()]; a list is true when it is not empty. *)
Definition get_carry_marks_df : Py session_state DataFrame :=
  let* st := get in
  match carry_marks st with
  | _ :: _ => ret (pd_DataFrame (carry_marks st))
  | [] => ret (pd_DataFrame_columns
                 ["course_code"; "element_type"; "element_name"; "earned"; "max_possible";
                  "weight_percentage"; "final_contribution"; "date_added"])
  end.

(** [get_assignments_df()]. *)
Definition get_assignments_df : Py session_state DataFrame :=
  let* st := get in
  match assignments st with
  | _ :: _ => ret (pd_DataFrame (assignments st))
  | [] => ret (pd_DataFrame_columns
                 ["title"; "course_code"; "type"; "due_date"; "status"; "description"])
  end.

(** [0 <= index < len(l)]. *)
Definition in_range {A} (index : Z) (l : list A) : bool :=
  (0 <=? index) && (index <? Z.of_nat (length l)).

(** [l[index]] for an index that is in range. *)
Definition list_getitem {A} (l : list A) (index : Z) : exn + A :=
  match l !! Z.to_nat index with
  | Some x => inr x
  | None => inl IndexError
  end.

(** [d[key]]. *)
Definition dict_getitem (d : dict) (key : string) : exn + value :=
  match d !! key with
  | Some v => inr v
  | None => inl (KeyError key)
  end.

(** [add_course(course_data)]. *)
Definition add_course (course_data : dict) : Py session_state unit :=
  modify (set_courses (λ l, l ++ [course_data])).

(** [update_course(index, course_data)]. *)
Definition update_course (index : Z) (course_data : dict) : Py session_state unit :=
  let* st := get in
  if in_range index (courses st)
  then modify (set_courses (λ l, <[Z.to_nat index := course_data]> l))
  else ret tt.

(** [delete_course(index)]. *)
Definition delete_course (index : Z) : Py session_state unit :=
  let* st := get in
  if in_range index (courses st) then
    let* c := lift (list_getitem (courses st) index) in
    let* course_code := lift (dict_getitem c "code") in
    modify (set_carry_marks (filter (λ cm, py_ne (dict_get cm "course_code") course_code))) ;;;
    modify (set_assignments (filter (λ a, py_ne (dict_get a "course_code") course_code))) ;;;
    modify (set_final_exams (filter (λ fe, py_ne (dict_get fe "course_code") course_code))) ;;;
    modify (set_courses (λ l, delete (Z.to_nat index) l))
  else ret tt.

(** [add_carry_mark(carry_data)], with the date string that
    [datetime.now().strftime("%Y-%m-%d")] returns. *)
Definition add_carry_mark (today : string) (carry_data : dict) : Py session_state unit :=
  let carry_data := <["date_added" := VStr today]> carry_data in
  modify (set_carry_marks (λ l, l ++ [carry_data])).

(** [add_assignment(assignment_data)]. *)
Definition add_assignment (assignment_data : dict) : Py session_state unit :=
  modify (set_assignments (λ l, l ++ [assignment_data])).

(** [update_assignment_status(index, new_status)]. *)
Definition update_assignment_status (index : Z) (new_status : value) : Py session_state unit :=
  let* st := get in
  if in_range index (assignments st)
  then modify (set_assignments (λ l, alter (λ a : dict, <["status" := new_status]> a) (Z.to_nat index) l))
  else ret tt.

(** [delete_assignment(index)]. *)
Definition delete_assignment (index : Z) : Py session_state unit :=
  let* st := get in
  if in_range index (assignments st)
  then modify (set_assignments (λ l, delete (Z.to_nat index) l))
  else ret tt.

(** The mutating entry points of the store, as one type of requests. *)
Inductive op :=
  | AddCourse (course_data : dict)
  | UpdateCourse (index : Z) (course_data : dict)
  | DeleteCourse (index : Z)
  | AddCarryMark (today : string) (carry_data : dict)
  | AddAssignment (assignment_data : dict)
  | UpdateAssignmentStatus (index : Z) (new_status : value)
  | DeleteAssignment (index : Z).

Definition exec (o : op) : Py session_state unit :=
  match o with
  | AddCourse d => add_course d
  | UpdateCourse i d => update_course i d
  | DeleteCourse i => delete_course i
  | AddCarryMark today d => add_carry_mark today d
  | AddAssignment d => add_assignment d
  | UpdateAssignmentStatus i s => update_assignment_status i s
  | DeleteAssignment i => delete_assignment i
  end.

(** The states a session can be in: the initial one, and every state an
    operation leaves behind (also when it raised). *)
Inductive reachable : session_state → Prop :=
  | reachable_initial : reachable initial_session_state
  | reachable_step st o : reachable st → reachable (exec o st).2.

(** Two courses carry the same code. *)
Definition same_code (c1 c2 : dict) : bool :=
  match c1 !! "code", c2 !! "code" with
  | Some a, Some b => py_eq a b
  | _, _ => false
  end.

(** No two courses of the list carry the same code. *)
Fixpoint unique_codes (l : list dict) : bool :=
  match l with
  | [] => true
  | c :: rest => forallb (λ c', negb (same_code c c')) rest && unique_codes rest
  end.

(** ** Vocabulary of the statements *)


(** The call [m] leaves the objects it was handed as they were, whatever
    it returns or raises. *)
Definition read_only {S A} (m : Py S A) : Prop := ∀ s, (m s).2 = s.

(** The course [d] carries the code of no course of [l]. *)
Definition apart (d : dict) (l : list dict) : Prop := ∀ c, c ∈ l → same_code d c = false.

(** The operation keeps course codes apart: the course that [add_course]
    appends, or that [update_course] writes at an index in range, carries
    the code of no other course of the list. *)
Definition keeps_codes_apart (o : op) (st : session_state) : Prop :=
  match o with
  | AddCourse d => apart d (courses st)
  | UpdateCourse i d =>
      in_range i (courses st) = true → apart d (delete (Z.to_nat i) (courses st))
  | _ => True
  end.

(** The states a session reaches when every operation keeps course codes
    apart. *)
Inductive reachable_apart : session_state → Prop :=
  | reachable_apart_initial : reachable_apart initial_session_state
  | reachable_apart_step st o :
      reachable_apart st → keeps_codes_apart o st → reachable_apart (exec o st).2.

(** ** Sample data *)

(** Two quizzes of one course, 8 of 10 and 18 of 20, entered without a
    [final_contribution]. *)
Definition two_quizzes : list dict :=
  [ {[ "course_code" := VStr "BSD 1323"; "earned" := VNum 8; "max_possible" := VNum 10 ]};
    {[ "course_code" := VStr "BSD 1323"; "earned" := VNum 18; "max_possible" := VNum 20 ]} ].


(** A quiz of one course without a [final_contribution], and a quiz of
    another course with one. *)
Definition marks_of_two_courses : list dict :=
  [ {[ "course_code" := VStr "BSD 1323"; "earned" := VNum 8; "max_possible" := VNum 10 ]};
    {[ "course_code" := VStr "BSD 2143"; "earned" := VNum 5; "max_possible" := VNum 10;
       "final_contribution" := VNum 7 ]} ].

(** One pending assignment, due on Monday 15 January 2024. *)
Definition one_assignment : list dict :=
  [ {[ "title" := VStr "Lab report"; "course_code" := VStr "BSD 1323"; "type" := VStr "Lab";
       "due_date" := VStr "2024-01-15"; "status" := VStr "pending";
       "description" := VStr "Week 2" ]} ].

(** A course under the code of the first default course, and one under a
    code of its own. *)
Definition repeated_course : dict := course "BSD 1323" "Data Visualization II" 60 40.

Definition new_course : dict := course "BSD 3333" "Machine Learning" 50 50.

(** A reading of the clock. *)
Definition morning_of_10_January_2024 : datetime :=
  {| year := 2024; month := 1; day := 10; hour := 10; minute := 30; second := 0;
     microsecond := 0 |}.

(** A carry mark as a caller may hand it to [add_carry_mark]: no
    [final_contribution]. *)
Definition first_quiz : dict :=
  {[ "course_code" := VStr "BSD 1323"; "element_type" := VStr "Quiz";
     "element_name" := VStr "Quiz 1"; "earned" := VNum 8; "max_possible" := VNum 10 ]}.

(** ** app.py *)


(** ** Vocabulary of the further properties *)


(** The time of day of a datetime, in microseconds since midnight. *)
Definition time_of_day (dt : datetime) : Z :=
  (second dt + minute dt * 60 + hour dt * 3600) * 1000000 + microsecond dt.

(** The assignments of a list whose status is "completed". *)
Definition completed (l : list dict) : list dict :=
  filter (λ a : dict, Series_eq (a !! "status") (VStr "completed")) l.


(** A carry mark that carries the day it was added on. *)
Definition dated (e : dict) : Prop := ∃ day, e !! "date_added" = Some (VStr day).

(** ** Further sample data *)



Definition assignment (title status : string) : dict :=
  {[ "title" := VStr title; "course_code" := VStr "BSD 1323"; "type" := VStr "Lab";
     "due_date" := VStr "2024-01-15"; "status" := VStr status ]}.

(** An assignment stored without a title. *)
Definition untitled_assignment : list dict :=
  [ {[ "course_code" := VStr "BSD 1323"; "due_date" := VStr "2024-01-15";
       "status" := VStr "pending" ]} ].

(** Two completed and two pending assignments. *)
Definition four_assignments : list dict :=
  [ assignment "Lab 1" "completed"; assignment "Lab 2" "completed";
    assignment "Lab 3" "pending"; assignment "Lab 4" "pending" ].

(** The initial session with the four assignments added. *)
Definition session_with_assignments : session_state :=
  set_assignments (λ _, four_assignments) initial_session_state.

(** A session whose courses were all deleted. *)
Definition session_without_courses : session_state :=
  set_courses (λ _, []) initial_session_state.

(** The initial session after one [add_carry_mark]. *)
Definition session_with_quiz : session_state :=
  (add_carry_mark "2024-01-15" first_quiz initial_session_state).2.

(** * Theorems *)

Local Open Scope Q_scope.

(** ** Comparisons on rationals *)

Lemma Qle_bool_false (a b : Q) : Qle_bool a b = false ↔ b < a.
Proof.
  destruct (Qle_bool a b) eqn:E.
  - apply Qle_bool_iff in E. split; [discriminate | intros H; lra].
  - split; [intros _ | reflexivity].
    apply Qnot_le_lt. intros H. apply Qle_bool_iff in H. congruence.
Qed.

Lemma Qeq_bool_false (a b : Q) : Qeq_bool a b = false ↔ ¬ a == b.
Proof.
  split.
  - intros E H. apply Qeq_bool_iff in H. congruence.
  - intros H. destruct (Qeq_bool a b) eqn:E; [|reflexivity].
    apply Qeq_bool_iff in E. contradiction.
Qed.



(** ** get_grade_letter *)

Ltac grade_cases p :=
  unfold get_grade_letter;
  repeat match goal with
         | |- context [Qle_bool ?b p] =>
             let E := fresh "E" in
             destruct (Qle_bool b p) eqn:E;
             [apply Qle_bool_iff in E | apply Qle_bool_false in E]
         end.

(** C4. [get_grade_letter] is a function on every rational percentage, and
    each letter is returned exactly on its row of the table: A+ from 90, A
    on [85, 90), A- on [80, 85), B+ on [75, 80), B on [70, 75), B- on
    [65, 70), C+ on [60, 65), C on [55, 60), C- on [50, 55), F below 50. The
    rows are disjoint and cover every percentage, each boundary belongs to
    its own row, 49.999 gives F and 100 gives A+. *)
Theorem get_grade_letter_table (percentage : Q) :
  (get_grade_letter percentage = "A+"%string ↔ 90 <= percentage) ∧
  (get_grade_letter percentage = "A"%string ↔ 85 <= percentage ∧ percentage < 90) ∧
  (get_grade_letter percentage = "A-"%string ↔ 80 <= percentage ∧ percentage < 85) ∧
  (get_grade_letter percentage = "B+"%string ↔ 75 <= percentage ∧ percentage < 80) ∧
  (get_grade_letter percentage = "B"%string ↔ 70 <= percentage ∧ percentage < 75) ∧
  (get_grade_letter percentage = "B-"%string ↔ 65 <= percentage ∧ percentage < 70) ∧
  (get_grade_letter percentage = "C+"%string ↔ 60 <= percentage ∧ percentage < 65) ∧
  (get_grade_letter percentage = "C"%string ↔ 55 <= percentage ∧ percentage < 60) ∧
  (get_grade_letter percentage = "C-"%string ↔ 50 <= percentage ∧ percentage < 55) ∧
  (get_grade_letter percentage = "F"%string ↔ percentage < 50) ∧
  get_grade_letter 90 = "A+"%string ∧ get_grade_letter 85 = "A"%string ∧
  get_grade_letter 80 = "A-"%string ∧ get_grade_letter 75 = "B+"%string ∧
  get_grade_letter 70 = "B"%string ∧ get_grade_letter 65 = "B-"%string ∧
  get_grade_letter 60 = "C+"%string ∧ get_grade_letter 55 = "C"%string ∧
  get_grade_letter 50 = "C-"%string ∧ get_grade_letter 49.999 = "F"%string ∧
  get_grade_letter 100 = "A+"%string.
Proof.
  (* each equivalence splits into its two directions; the eleven values
     are computed *)
  repeat apply conj; try reflexivity;
    grade_cases percentage; intros H; try discriminate H; try reflexivity; lra.
Qed.

(** ** calculate_final_exam_requirement *)



(** ** Tables *)


Lemma empty_false (df : DataFrame) (label : string) :
  label ∈ columns df → rows df ≠ [] → empty df = false.
Proof.
  unfold empty. intros Hl Hr. destruct (rows df); [done|].
  apply bool_decide_eq_false. set_solver.
Qed.

Lemma select_eq_column (df : DataFrame) (label : string) (v : value) :
  label ∈ columns df → select_eq df label v = inr (rows_where df label v).
Proof. intros H. unfold select_eq. rewrite bool_decide_eq_true_2; done. Qed.

Lemma select_eq_no_column (df : DataFrame) (label : string) (v : value) :
  label ∉ columns df → select_eq df label v = inl (KeyError label).
Proof. intros H. unfold select_eq. rewrite bool_decide_eq_false_2; done. Qed.


Ltac run := unfold bind, get, lift, ret, modify, on_fst; simpl.

(** ** calculate_carry_percentage *)




(** On cells that all hold numbers, [Series_sum] is their sum. *)
Lemma Series_sum_numbers (qs : list Q) :
  Series_sum ((λ q, Some (VNum q)) <$> qs) = inr (foldr Qplus 0 qs).
Proof.
  induction qs as [|q qs IH]; [reflexivity|].
  rewrite fmap_cons. cbn [Series_sum]. rewrite IH. reflexivity.
Qed.



Lemma pd_DataFrame_column (data : list dict) (record : dict) (key : string) :
  record ∈ data → is_Some (record !! key) → key ∈ columns (pd_DataFrame data).
Proof.
  intros Hin Hk. simpl. apply elem_of_union_list.
  exists (dom record). split.
  - apply list_elem_of_fmap. exists record. done.
  - apply elem_of_dom. done.
Qed.



(** ** calculate_current_grade *)

Section CurrentGrade.

Variables (course_code : value) (carry_marks_df courses_df : DataFrame).

Let tables := (carry_marks_df, courses_df).
Let course_info := rows_where courses_df "code" course_code.
Let course_marks := rows_where carry_marks_df "course_code" course_code.

(** A courses table without a [code] column, such as [pd.DataFrame([])]
    for an empty course list, is outside C1: the first selection raises. *)
Lemma calculate_current_grade_no_code_column :
  "code" ∉ columns courses_df →
  calculate_current_grade course_code tables = (inl (KeyError "code"), tables).
Proof.
  intros H. unfold tables, course_info, course_marks in *.
  unfold calculate_current_grade. run.
  rewrite (select_eq_no_column _ _ _ H). reflexivity.
Qed.





End CurrentGrade.

(** ** Calls that write nothing *)

Lemma read_only_ret {S A} (a : A) : read_only (ret a : Py S A).
Proof. intros s. reflexivity. Qed.

Lemma read_only_lift {S A} (r : exn + A) : read_only (lift r : Py S A).
Proof. intros s. reflexivity. Qed.

Lemma read_only_get {S} : read_only (get : Py S S).
Proof. intros s. reflexivity. Qed.

Lemma read_only_bind {S A B} (m : Py S A) (k : A → Py S B) :
  read_only m → (∀ a, read_only (k a)) → read_only (bind m k).
Proof.
  intros Hm Hk s. unfold bind. specialize (Hm s).
  destruct (m s) as [[e|a] s']; simpl in *; subst s'; [reflexivity | apply Hk].
Qed.

Lemma read_only_on_fst {S T A} (m : Py S A) : read_only m → read_only (on_fst m : Py (S * T) A).
Proof.
  intros Hm [s t]. unfold on_fst. simpl. specialize (Hm s).
  destruct (m s) as [r s']. simpl in *. subst s'. reflexivity.
Qed.

Lemma read_only_if {S A} (b : bool) (m1 m2 : Py S A) :
  read_only m1 → read_only m2 → read_only (if b then m1 else m2).
Proof. destruct b; auto. Qed.

Ltac read_only :=
  repeat first
    [ apply read_only_ret | apply read_only_lift | apply read_only_get
    | apply read_only_if | apply read_only_on_fst
    | apply read_only_bind; [|intros ?] | assumption ].






(** The column belongs to the table, not to a course: the entry of BSD 2143
    carries the field, so BSD 1323 goes down the sum path too, where its
    own cell is missing and the sum is 0. *)
Lemma calculate_current_grade_column_of_other_course :
  calculate_current_grade (VStr "BSD 1323")
    (pd_DataFrame marks_of_two_courses, pd_DataFrame get_default_courses)
  = (inr 0, (pd_DataFrame marks_of_two_courses, pd_DataFrame get_default_courses)).
Proof. compute_done. Qed.

(** ** get_weekly_workload *)

Lemma getitem_column (df : DataFrame) (label : string) :
  label ∈ columns df → getitem df label = inr ((λ r : dict, r !! label) <$> rows df).
Proof. intros H. unfold getitem. rewrite bool_decide_eq_true_2; done. Qed.

Lemma getitem_length (df : DataFrame) (label : string) (cells : list (option value)) :
  getitem df label = inr cells → length cells = length (rows df).
Proof.
  unfold getitem. case_bool_decide; [|discriminate].
  intros [= <-]. apply length_fmap.
Qed.

Lemma getitem_setitem_eq (df : DataFrame) (label : string) (cells : list value) :
  length cells = length (rows df) →
  getitem (setitem label cells df) label = inr (Some <$> cells).
Proof.
  intros Hlen. rewrite getitem_column by (simpl; set_solver).
  f_equal. simpl. revert cells Hlen.
  induction (rows df) as [|r l IH]; intros [|c cells] Hlen; simpl in Hlen |- *; try done.
  rewrite lookup_insert_eq. f_equal. apply IH. lia.
Qed.

Lemma getitem_setitem_ne (df : DataFrame) (label other : string) (cells : list value) :
  other ≠ label → length cells = length (rows df) →
  getitem (setitem label cells df) other = getitem df other.
Proof.
  intros Hne Hlen. unfold getitem.
  assert (bool_decide (other ∈ columns (setitem label cells df))
          = bool_decide (other ∈ columns df)) as ->.
  { apply bool_decide_ext. simpl. rewrite elem_of_union, elem_of_singleton.
    split; [intros [H|H]; [exact H | contradiction] | intros H; left; exact H]. }
  destruct (bool_decide (other ∈ columns df)); [|reflexivity].
  f_equal. simpl. revert cells Hlen.
  induction (rows df) as [|r l IH]; intros [|c cells] Hlen; simpl in Hlen |- *; try done.
  rewrite lookup_insert_ne by done. f_equal. apply IH. lia.
Qed.

Lemma setitem_length (df : DataFrame) (label : string) (cells : list value) :
  length cells = length (rows df) → length (rows (setitem label cells df)) = length (rows df).
Proof. intros H. simpl. rewrite length_zip_with. lia. Qed.

Lemma setitem_empty (df : DataFrame) (label : string) (cells : list value) :
  length cells = length (rows df) → empty df = false → empty (setitem label cells df) = false.
Proof.
  unfold empty. simpl. destruct (rows df), cells; simpl; try done.
  intros _ _. apply bool_decide_eq_false. set_solver.
Qed.

Section WeeklyWorkload.

Variable to_datetime_str : string → option Z.

Lemma to_datetime_length (cells : list (option value)) (stamps : list value) :
  to_datetime to_datetime_str cells = inr stamps → length stamps = length cells.
Proof.
  revert stamps. induction cells as [|cell rest IH]; intros stamps; simpl.
  - intros [= <-]. reflexivity.
  - destruct (to_datetime to_datetime_str rest) as [e|vs];
      destruct cell as [[| s | q | ns | | w]|]; simpl;
      try destruct (to_datetime_str s); try discriminate;
      intros [= <-]; simpl; f_equal; apply IH; reflexivity.
Qed.


Lemma get_weekly_workload_no_due_date (df : DataFrame) :
  empty df = false → "due_date" ∉ columns df →
  get_weekly_workload to_datetime_str df = (inl (KeyError "due_date"), df).
Proof.
  intros H Hc. unfold get_weekly_workload. run. rewrite H.
  unfold getitem. rewrite bool_decide_eq_false_2 by done. reflexivity.
Qed.

Lemma get_weekly_workload_unparsed (df : DataFrame) (due : list (option value)) (e : exn) :
  empty df = false → getitem df "due_date" = inr due →
  to_datetime to_datetime_str due = inl e →
  get_weekly_workload to_datetime_str df = (inl e, df).
Proof.
  intros H Hd Ht. unfold get_weekly_workload. run. rewrite H, Hd, Ht. reflexivity.
Qed.

Lemma get_weekly_workload_parsed (df : DataFrame) (due : list (option value)) (stamps : list value) :
  empty df = false → getitem df "due_date" = inr due →
  to_datetime to_datetime_str due = inr stamps →
  get_weekly_workload to_datetime_str df
  = (groupby_week_agg
       (setitem "week" (to_period_W (Some <$> stamps)) (setitem "due_date" stamps df)),
     setitem "week" (to_period_W (Some <$> stamps)) (setitem "due_date" stamps df)).
Proof.
  intros H Hd Ht. unfold get_weekly_workload. run. rewrite H, Hd, Ht.
  assert (length stamps = length (rows df)) as Hlen.
  { rewrite (to_datetime_length _ _ Ht). eapply getitem_length, Hd. }
  rewrite (getitem_setitem_eq df "due_date" stamps Hlen). reflexivity.
Qed.

End WeeklyWorkload.

(** What the call returns and what it leaves in the table it was handed:
    15 January 2024 lies in week 2820, and the [due_date] cell is now a
    timestamp. *)
Lemma one_assignment_example :
  get_weekly_workload to_datetime_iso (pd_DataFrame one_assignment)
  = (inr {| columns := list_to_set ["week"; "total_assignments"; "pending_assignments"];
            rows := [ {[ "week" := VPeriod 2820; "total_assignments" := VNum 1;
                         "pending_assignments" := VNum 1 ]} ] |},
     {| columns := columns (pd_DataFrame one_assignment) ∪ {["week"]};
        rows := [ <["week" := VPeriod 2820]>
                    (<["due_date" := VTimestamp 1705276800000000000]>
                       ({[ "title" := VStr "Lab report"; "course_code" := VStr "BSD 1323";
                           "type" := VStr "Lab"; "due_date" := VStr "2024-01-15";
                           "status" := VStr "pending"; "description" := VStr "Week 2" ]})) ] |}).
Proof. compute_done. Qed.




(** ** The record store *)

Lemma in_range_true {A} (index : Z) (l : list A) :
  in_range index l = true ↔ (0 ≤ index < Z.of_nat (length l))%Z.
Proof. unfold in_range. rewrite andb_true_iff, Z.leb_le, Z.ltb_lt. done. Qed.

Lemma in_range_false {A} (index : Z) (l : list A) :
  in_range index l = false ↔ ¬ (0 ≤ index < Z.of_nat (length l))%Z.
Proof. rewrite <- in_range_true. destruct (in_range index l); intuition congruence. Qed.

Lemma in_range_lookup {A} (index : Z) (l : list A) (x : A) :
  (0 ≤ index)%Z → l !! Z.to_nat index = Some x → in_range index l = true.
Proof.
  intros H0 Hx. apply in_range_true. apply lookup_lt_Some in Hx. lia.
Qed.

Section DeleteCourse.

Variables (st : session_state) (index : Z) (c : dict) (course_code : value).

Hypothesis index_nonneg : (0 ≤ index)%Z.
Hypothesis course_at_index : courses st !! Z.to_nat index = Some c.
Hypothesis code_of_course : c !! "code" = Some course_code.

Let other_course (e : dict) : Prop := py_ne (dict_get e "course_code") course_code.

Lemma delete_course_run :
  delete_course index st
  = (inr tt,
     {| courses := delete (Z.to_nat index) (courses st);
        carry_marks := filter other_course (carry_marks st);
        final_exams := filter other_course (final_exams st);
        assignments := filter other_course (assignments st);
        theme_color := theme_color st |}).
Proof.
  unfold delete_course. run.
  rewrite (in_range_lookup _ _ _ index_nonneg course_at_index).
  unfold list_getitem. rewrite course_at_index.
  unfold dict_getitem. rewrite code_of_course. reflexivity.
Qed.

End DeleteCourse.




(** C7. With an index outside [0, len(courses)), [update_course] and
    [delete_course] raise nothing and leave the whole state as it was; with
    an index outside [0, len(assignments)), so do
    [update_assignment_status] and [delete_assignment]. *)
Theorem out_of_range_index_ignored (st : session_state) (index : Z) :
  (¬ (0 ≤ index < Z.of_nat (length (courses st)))%Z →
   (∀ course_data, update_course index course_data st = (inr tt, st)) ∧
   delete_course index st = (inr tt, st)) ∧
  (¬ (0 ≤ index < Z.of_nat (length (assignments st)))%Z →
   (∀ new_status, update_assignment_status index new_status st = (inr tt, st)) ∧
   delete_assignment index st = (inr tt, st)).
Proof.
  split; intros H; apply in_range_false in H.
  - split; [intros course_data; unfold update_course | unfold delete_course];
      run; rewrite H; reflexivity.
  - split; [intros new_status; unfold update_assignment_status | unfold delete_assignment];
      run; rewrite H; reflexivity.
Qed.

(** C7, one index past the seven default courses and a negative one. *)
Lemma out_of_range_index_ignored_witness :
  delete_course 7 initial_session_state = (inr tt, initial_session_state) ∧
  delete_assignment (-1) initial_session_state = (inr tt, initial_session_state).
Proof.
  split.
  - apply (proj1 (out_of_range_index_ignored initial_session_state 7)). simpl. lia.
  - apply (proj2 (out_of_range_index_ignored initial_session_state (-1))). simpl. lia.
Defined.

(** ** Course codes *)

Lemma py_eq_sym (a b : value) : py_eq a b = py_eq b a.
Proof.
  destruct a, b; simpl; try reflexivity.
  - apply bool_decide_ext. done.
  - destruct (Qeq_bool q q0) eqn:E; symmetry.
    + apply Qeq_bool_iff in E. apply Qeq_bool_iff. symmetry. exact E.
    + apply Qeq_bool_false in E. apply Qeq_bool_false. intros H. apply E. symmetry. exact H.
  - apply bool_decide_ext. done.
  - apply bool_decide_ext. done.
Qed.

Lemma same_code_sym (c1 c2 : dict) : same_code c1 c2 = same_code c2 c1.
Proof.
  unfold same_code. destruct (c1 !! "code"), (c2 !! "code"); try reflexivity.
  apply py_eq_sym.
Qed.

Lemma apart_cons (d a : dict) (l : list dict) :
  apart d (a :: l) ↔ same_code d a = false ∧ apart d l.
Proof.
  unfold apart. split.
  - intros H. split; [apply H; left | intros c Hc; apply H; right; exact Hc].
  - intros [Ha Hl] c Hc. apply elem_of_cons in Hc as [->|Hc]; [exact Ha | apply Hl, Hc].
Qed.

Lemma apart_app (d : dict) (l1 l2 : list dict) :
  apart d (l1 ++ l2) ↔ apart d l1 ∧ apart d l2.
Proof.
  unfold apart. split.
  - intros H. split; intros c Hc; apply H, elem_of_app; [left | right]; exact Hc.
  - intros [H1 H2] c Hc. apply elem_of_app in Hc as [Hc|Hc]; [apply H1 | apply H2]; exact Hc.
Qed.

Lemma unique_codes_cons (a : dict) (l : list dict) :
  unique_codes (a :: l) = true ↔ apart a l ∧ unique_codes l = true.
Proof.
  simpl. rewrite andb_true_iff, forallb_forall. unfold apart.
  split; intros [H1 H2]; (split; [|exact H2]); intros c Hc.
  - apply list_elem_of_In, H1 in Hc. destruct (same_code a c); [discriminate | reflexivity].
  - apply list_elem_of_In, H1 in Hc. rewrite Hc. reflexivity.
Qed.

Lemma unique_codes_middle (l1 : list dict) (d : dict) (l2 : list dict) :
  unique_codes (l1 ++ d :: l2) = true ↔ apart d (l1 ++ l2) ∧ unique_codes (l1 ++ l2) = true.
Proof.
  induction l1 as [|a l1 IH].
  - apply unique_codes_cons.
  - rewrite <- !app_comm_cons, !unique_codes_cons, IH.
    rewrite apart_cons, !apart_app, apart_cons, (same_code_sym d a). tauto.
Qed.

Lemma unique_codes_append (l : list dict) (d : dict) :
  unique_codes (l ++ [d]) = true ↔ unique_codes l = true ∧ apart d l.
Proof. rewrite unique_codes_middle, app_nil_r. tauto. Qed.

Lemma unique_codes_delete (l : list dict) (i : nat) :
  unique_codes l = true → unique_codes (delete i l) = true.
Proof.
  intros H. destruct (l !! i) as [x|] eqn:E.
  - rewrite delete_take_drop. rewrite <- (take_drop_middle l i x E) in H.
    apply unique_codes_middle in H. tauto.
  - apply lookup_ge_None in E.
    rewrite delete_take_drop, take_ge, drop_ge, app_nil_r by lia. exact H.
Qed.

Lemma unique_codes_insert (l : list dict) (i : nat) (d : dict) :
  unique_codes l = true → apart d (delete i l) → unique_codes (<[i:=d]> l) = true.
Proof.
  intros H Hd. destruct (l !! i) as [x|] eqn:E.
  - rewrite insert_take_drop by (eapply lookup_lt_Some, E).
    apply unique_codes_middle. rewrite <- delete_take_drop.
    split; [exact Hd | apply unique_codes_delete, H].
  - rewrite list_insert_ge; [exact H|]. apply lookup_ge_None. exact E.
Qed.

Lemma delete_course_courses (st : session_state) (index : Z) :
  courses (delete_course index st).2 = courses st ∨
  courses (delete_course index st).2 = delete (Z.to_nat index) (courses st).
Proof.
  unfold delete_course. run.
  destruct (in_range index (courses st)); [|left; reflexivity].
  destruct (list_getitem (courses st) index) as [e|c]; [left; reflexivity|].
  destruct (dict_getitem c "code") as [e|v]; [left; reflexivity|].
  right. reflexivity.
Qed.

Lemma exec_keeps_unique (o : op) (st : session_state) :
  keeps_codes_apart o st → unique_codes (courses st) = true →
  unique_codes (courses (exec o st).2) = true.
Proof.
  intros Ho H. destruct o as [d | i d | i | today d | d | i s | i ]; simpl in Ho |- *.
  - apply unique_codes_append. split; assumption.
  - unfold update_course. run. destruct (in_range i (courses st)) eqn:E; [|exact H].
    simpl. apply unique_codes_insert; [exact H | exact (Ho eq_refl)].
  - destruct (delete_course_courses st i) as [-> | ->];
      [exact H | apply unique_codes_delete, H].
  - exact H.
  - exact H.
  - unfold update_assignment_status. run. destruct (in_range i (assignments st)); exact H.
  - unfold delete_assignment. run. destruct (in_range i (assignments st)); exact H.
Qed.

(** C8, as the code has it. The default courses carry pairwise different
    codes; in every state reached from the initial one by operations that
    keep course codes apart, no two courses carry the same code; and
    [add_course] leaves the codes pairwise different exactly when they were
    so and the appended course carries the code of none of them. *)
Theorem course_codes_unique_when_kept_apart :
  unique_codes (courses initial_session_state) = true ∧
  (∀ st, reachable_apart st → unique_codes (courses st) = true) ∧
  (∀ st course_data,
     unique_codes (courses (add_course course_data st).2) = true
     ↔ unique_codes (courses st) = true ∧ ∀ c, c ∈ courses st → same_code course_data c = false).
Proof.
  split; [reflexivity|]. split.
  - intros st Hst. induction Hst as [|st o Hst IH Ho]; [reflexivity|].
    apply exec_keeps_unique; assumption.
  - intros st d. apply unique_codes_append.
Qed.

(** C8, appending a course under a code of its own. *)
Lemma course_codes_unique_witness :
  unique_codes (courses (add_course new_course initial_session_state).2) = true.
Proof.
  apply (proj1 (proj2 course_codes_unique_when_kept_apart)
           (exec (AddCourse new_course) initial_session_state).2).
  apply reachable_apart_step; [apply reachable_apart_initial|].
  simpl. unfold apart. apply Forall_forall. compute_done.
Defined.

(** C8 as stated fails: [add_course] appends a second course under the
    code BSD 1323, and the state it leaves is reachable. *)
Lemma add_course_repeats_code :
  reachable (add_course repeated_course initial_session_state).2 ∧
  unique_codes (courses (add_course repeated_course initial_session_state).2) = false.
Proof.
  split; [apply (reachable_step initial_session_state (AddCourse repeated_course)), reachable_initial|].
  reflexivity.
Qed.

(** ** calculate_days_until_due *)

Lemma days_datetime_sub (a b : datetime) :
  days (datetime_sub a b) = ((to_microseconds a - to_microseconds b) `div` 86400000000)%Z.
Proof.
  unfold datetime_sub, mk_timedelta, to_microseconds. simpl.
  set (d := (toordinal a - toordinal b)%Z).
  set (s := (second a + minute a * 60 + hour a * 3600
             - (second b + minute b * 60 + hour b * 3600))%Z).
  set (us := (microsecond a - microsecond b)%Z).
  replace ((toordinal a * 86400 + second a + minute a * 60 + hour a * 3600) * 1000000
           + microsecond a
           - ((toordinal b * 86400 + second b + minute b * 60 + hour b * 3600) * 1000000
              + microsecond b))%Z
    with ((d * 86400 + s) * 1000000 + us)%Z by (unfold d, s, us; lia).
  change 86400000000%Z with (1000000 * 86400)%Z.
  rewrite <- Z.div_div by lia.
  rewrite (Z.div_add_l (d * 86400 + s) 1000000 us) by lia.
  rewrite <- Z.add_assoc, (Z.div_add_l d 86400) by lia.
  reflexivity.
Qed.

(** C9. When the string parses, [calculate_days_until_due] returns the
    whole days from the clock reading to the parsed date: the difference in
    microseconds divided by those of a day, rounded down, as [timedelta.days]
    is; it is negative when the date lies before the clock reading and not
    negative otherwise. When the string does not parse it returns 0; no
    exception leaves the function. *)
Theorem calculate_days_until_due_spec
    (strptime : string → option datetime) (now : datetime) (due_date_str : string) :
  (∀ due_date, strptime due_date_str = Some due_date →
     calculate_days_until_due strptime now due_date_str
     = ((to_microseconds due_date - to_microseconds now) `div` 86400000000)%Z ∧
     ((to_microseconds due_date < to_microseconds now)%Z →
      (calculate_days_until_due strptime now due_date_str < 0)%Z) ∧
     ((to_microseconds now ≤ to_microseconds due_date)%Z →
      (0 ≤ calculate_days_until_due strptime now due_date_str)%Z)) ∧
  (strptime due_date_str = None → calculate_days_until_due strptime now due_date_str = 0%Z).
Proof.
  unfold calculate_days_until_due. split.
  - intros due_date ->. rewrite days_datetime_sub. split; [reflexivity|]. split; intros H.
    + apply Z.div_lt_upper_bound; lia.
    + apply Z.div_pos; lia.
  - intros ->. reflexivity.
Qed.

(** C9, at half past ten on 10 January 2024: five days ahead, the same
    day, and a string in another format. *)
Lemma calculate_days_until_due_witness :
  calculate_days_until_due strptime_iso morning_of_10_January_2024 "2024-01-15" = 4%Z ∧
  calculate_days_until_due strptime_iso morning_of_10_January_2024 "2024-01-10" = (-1)%Z ∧
  calculate_days_until_due strptime_iso morning_of_10_January_2024 "15/01/2024" = 0%Z.
Proof.
  split; [|split].
  - apply (proj1 (proj1 (calculate_days_until_due_spec strptime_iso
             morning_of_10_January_2024 "2024-01-15")
             {| year := 2024; month := 1; day := 15; hour := 0; minute := 0; second := 0;
                microsecond := 0 |} eq_refl)).
  - apply (proj1 (proj1 (calculate_days_until_due_spec strptime_iso
             morning_of_10_January_2024 "2024-01-10")
             {| year := 2024; month := 1; day := 10; hour := 0; minute := 0; second := 0;
                microsecond := 0 |} eq_refl)).
  - apply (proj2 (calculate_days_until_due_spec strptime_iso
             morning_of_10_January_2024 "15/01/2024") eq_refl).
Defined.

(** ** get_carry_marks_df *)





(** * Further properties *)

(** ** calculate_completion_rate *)

Lemma calculate_completion_rate_value (assignments_df : DataFrame) :
  empty assignments_df = false → "status" ∈ columns assignments_df →
  ∃ rate, calculate_completion_rate assignments_df = (inr rate, assignments_df) ∧
    rate == 100 * inject_Z (len (rows_where assignments_df "status" (VStr "completed")))
            / inject_Z (len assignments_df) ∧
    0 <= rate ∧ rate <= 100.
Proof.
  intros E H. unfold calculate_completion_rate. run.
  rewrite E, (select_eq_column _ _ _ H).
  assert (0 < len assignments_df)%Z as Hpos.
  { unfold len. unfold empty in E. destruct (rows assignments_df); [discriminate|]. simpl. lia. }
  assert (len (rows_where assignments_df "status" (VStr "completed")) ≤ len assignments_df)%Z
    as Hle.
  { unfold len. simpl. apply inj_le, length_filter. }
  assert (0 ≤ len (rows_where assignments_df "status" (VStr "completed")))%Z as Hnn
    by (unfold len; lia).
  apply Z.ltb_lt in Hpos as Hb. rewrite Hb.
  set (c := len (rows_where assignments_df "status" (VStr "completed"))) in *.
  set (t := len assignments_df) in *.
  assert (0 < inject_Z t) as Ht
    by (change 0 with (inject_Z 0); rewrite <- Zlt_Qlt; exact Hpos).
  assert (0 <= inject_Z c) as Hc
    by (change 0 with (inject_Z 0); rewrite <- Zle_Qle; exact Hnn).
  assert (inject_Z c <= inject_Z t) as Hct by (rewrite <- Zle_Qle; exact Hle).
  assert (0 <= inject_Z c / inject_Z t) as H0 by (apply Qle_shift_div_l; lra).
  assert (inject_Z c / inject_Z t <= 1) as H1 by (apply Qle_shift_div_r; lra).
  eexists. split; [reflexivity|]. split; [field; lra|].
  set (x := inject_Z c / inject_Z t) in *. lra.
Qed.



(** X2. Through the accessor, the completion rate of a session whose
    assignments all carry a status never raises and lies between 0 and
    100; with no assignment it is 0, the empty table having its six
    columns. *)
Theorem completion_rate_of_session (st : session_state) :
  (∀ a, a ∈ assignments st → is_Some (a !! "status")) →
  ∃ assignments_df rate,
    get_assignments_df st = (inr assignments_df, st) ∧
    calculate_completion_rate assignments_df = (inr rate, assignments_df) ∧
    0 <= rate ∧ rate <= 100 ∧
    (assignments st = [] → rate = 0 ∧ "status" ∈ columns assignments_df).
Proof.
  intros Hstatus. unfold get_assignments_df. run.
  destruct (assignments st) as [|a l] eqn:E.
  - eexists _, 0. split; [reflexivity|]. split; [reflexivity|].
    split; [lra|]. split; [lra|]. intros _. split; [reflexivity | compute_done].
  - assert ("status" ∈ columns (pd_DataFrame (a :: l))) as Hcol.
    { eapply pd_DataFrame_column; [left | apply Hstatus; left]. }
    assert (empty (pd_DataFrame (a :: l)) = false) as Hne.
    { apply (empty_false _ "status" Hcol). done. }
    destruct (calculate_completion_rate_value (pd_DataFrame (a :: l)) Hne Hcol)
      as (rate & Hrun & _ & H0 & H1).
    exists (pd_DataFrame (a :: l)), rate.
    split; [reflexivity|]. split; [exact Hrun|].
    split; [exact H0|]. split; [exact H1|]. discriminate.
Qed.

(** X2, on the session with four assignments. *)
Lemma completion_rate_of_session_witness :
  ∃ assignments_df rate,
    get_assignments_df session_with_assignments = (inr assignments_df, session_with_assignments) ∧
    calculate_completion_rate assignments_df = (inr rate, assignments_df) ∧
    0 <= rate ∧ rate <= 100.
Proof.
  destruct (completion_rate_of_session session_with_assignments)
    as (df & rate & Hdf & Hrun & H0 & H1 & _).
  - apply Forall_forall. compute_done.
  - exists df, rate. split; [exact Hdf|]. split; [exact Hrun|]. split; [exact H0 | exact H1].
Defined.

(** ** calculate_carry_percentage, further *)










(** ** calculate_final_exam_requirement, further *)



(** ** calculate_days_until_due, further *)

(** X7. Against the calendar. For a due date that parses to a midnight,
    [calculate_days_until_due] returns the difference of the two day
    numbers when the clock reads midnight exactly, and one day less at any
    later time of the day: a date one calendar day ahead gives 0, today's
    date gives -1. *)
Theorem calculate_days_until_due_calendar
    (strptime : string → option datetime) (now : datetime) (due_date_str : string)
    (due_date : datetime) :
  strptime due_date_str = Some due_date →
  time_of_day due_date = 0%Z →
  (time_of_day now = 0%Z →
   calculate_days_until_due strptime now due_date_str
   = (toordinal due_date - toordinal now)%Z) ∧
  ((0 < time_of_day now < 86400000000)%Z →
   calculate_days_until_due strptime now due_date_str
   = (toordinal due_date - toordinal now - 1)%Z).
Proof.
  intros Hparse Hdue. unfold calculate_days_until_due. rewrite Hparse.
  rewrite days_datetime_sub.
  assert (∀ dt, to_microseconds dt = (toordinal dt * 86400000000 + time_of_day dt)%Z) as Hus
    by (intros dt; unfold to_microseconds, time_of_day; lia).
  rewrite !Hus, Hdue.
  set (d := (toordinal due_date - toordinal now)%Z).
  split; intros Hnow.
  - rewrite Hnow.
    replace (toordinal due_date * 86400000000 + 0 - (toordinal now * 86400000000 + 0))%Z
      with (d * 86400000000)%Z by (unfold d; lia).
    apply Z.div_mul. lia.
  - symmetry. apply (Z.div_unique _ _ _ (86400000000 - time_of_day now)%Z); [lia|].
    unfold d. lia.
Qed.

(** X7, at half past ten on 10 January 2024, for the next day: the day
    numbers differ by 1, the result is 0. *)
Lemma calculate_days_until_due_calendar_witness :
  calculate_days_until_due strptime_iso morning_of_10_January_2024 "2024-01-11"
  = (ymd2ord 2024 1 11 - ymd2ord 2024 1 10 - 1)%Z.
Proof.
  apply (proj2 (calculate_days_until_due_calendar strptime_iso morning_of_10_January_2024
                  "2024-01-11"
                  {| year := 2024; month := 1; day := 11; hour := 0; minute := 0; second := 0;
                     microsecond := 0 |} eq_refl eq_refl)).
  vm_compute. split; reflexivity.
Defined.

(** ** The record store, index in range *)

(** X8. With an index in range, [update_course] puts the record at the
    index, keeps every other course and the length, and touches nothing
    else: carry marks, assignments and final exams stay as they were, also
    when the new record carries another code. *)
Theorem update_course_in_range (st : session_state) (index : Z) (course_data : dict) :
  (0 ≤ index < Z.of_nat (length (courses st)))%Z →
  ∃ st', update_course index course_data st = (inr tt, st') ∧
    courses st' !! Z.to_nat index = Some course_data ∧
    (∀ j, j ≠ Z.to_nat index → courses st' !! j = courses st !! j) ∧
    length (courses st') = length (courses st) ∧
    carry_marks st' = carry_marks st ∧ assignments st' = assignments st ∧
    final_exams st' = final_exams st ∧ theme_color st' = theme_color st.
Proof.
  intros H. unfold update_course. run.
  rewrite (proj2 (in_range_true index (courses st)) H).
  eexists. split; [reflexivity|]. simpl.
  split; [apply list_lookup_insert_eq; lia|].
  split; [intros j Hj; apply list_lookup_insert_ne; congruence|].
  split; [apply length_insert|]. done.
Qed.

(** X8, overwriting the first default course. *)
Lemma update_course_in_range_witness :
  ∃ st', update_course 0 new_course initial_session_state = (inr tt, st') ∧
         courses st' !! 0%nat = Some new_course ∧ carry_marks st' = [].
Proof.
  destruct (update_course_in_range initial_session_state 0 new_course)
    as (st' & Hrun & Hat & _ & _ & Hcm & _); [simpl; lia|].
  exists st'. split; [exact Hrun|]. split; [exact Hat | exact Hcm].
Defined.



(** X10. With an index in range, [delete_assignment] removes the
    assignment at the index and nothing else: the assignments before and
    after it stay in their order, the list is one shorter, and courses,
    carry marks and final exams stay as they were. *)
Theorem delete_assignment_in_range (st : session_state) (index : Z) (a : dict) :
  (0 ≤ index)%Z →
  assignments st !! Z.to_nat index = Some a →
  ∃ st', delete_assignment index st = (inr tt, st') ∧
    assignments st' = take (Z.to_nat index) (assignments st)
                      ++ drop (S (Z.to_nat index)) (assignments st) ∧
    assignments st = take (Z.to_nat index) (assignments st) ++ a
                     :: drop (S (Z.to_nat index)) (assignments st) ∧
    S (length (assignments st')) = length (assignments st) ∧
    courses st' = courses st ∧ carry_marks st' = carry_marks st ∧
    final_exams st' = final_exams st.
Proof.
  intros H0 Ha. unfold delete_assignment. run.
  rewrite (in_range_lookup _ _ _ H0 Ha).
  eexists. split; [reflexivity|]. simpl.
  split; [apply delete_take_drop|].
  split; [symmetry; apply take_drop_middle, Ha|].
  split; [|done].
  rewrite length_delete by eauto. apply lookup_lt_Some in Ha. lia.
Qed.

(** X10, deleting the second of the four assignments. *)
Lemma delete_assignment_in_range_witness :
  ∃ st', delete_assignment 1 session_with_assignments = (inr tt, st') ∧
         assignments st' = [ assignment "Lab 1" "completed"; assignment "Lab 3" "pending";
                             assignment "Lab 4" "pending" ].
Proof.
  destruct (delete_assignment_in_range session_with_assignments 1
              (assignment "Lab 2" "completed"))
    as (st' & Hrun & Hrest & _); [lia | reflexivity |].
  exists st'. split; [exact Hrun | exact Hrest].
Defined.

(** ** add_carry_mark and the accessor *)


(** ** delete_course, further *)

Lemma delete_course_cases (st : session_state) (index : Z) :
  delete_course index st = (inr tt, st) ∨
  delete_course index st = (inl (KeyError "code"), st) ∨
  ∃ c course_code, (0 ≤ index)%Z ∧ courses st !! Z.to_nat index = Some c ∧
    c !! "code" = Some course_code ∧
    delete_course index st
    = (inr tt,
       {| courses := delete (Z.to_nat index) (courses st);
          carry_marks := filter (λ e : dict, py_ne (dict_get e "course_code") course_code)
                           (carry_marks st);
          final_exams := filter (λ e : dict, py_ne (dict_get e "course_code") course_code)
                           (final_exams st);
          assignments := filter (λ e : dict, py_ne (dict_get e "course_code") course_code)
                           (assignments st);
          theme_color := theme_color st |}).
Proof.
  destruct (in_range index (courses st)) eqn:E.
  - apply in_range_true in E as Hr.
    destruct (lookup_lt_is_Some_2 (courses st) (Z.to_nat index)) as [c Hc]; [lia|].
    destruct (c !! "code") as [course_code|] eqn:Hcode.
    + right. right. exists c, course_code. split; [lia|]. split; [exact Hc|].
      split; [exact Hcode|]. apply (delete_course_run st index c course_code); [lia|done|done].
    + right. left.
      unfold delete_course. run. rewrite E. unfold list_getitem. rewrite Hc.
      unfold dict_getitem. rewrite Hcode. reflexivity.
  - left. unfold delete_course. run. rewrite E. reflexivity.
Qed.

(** X12. A course record without a [code] field cannot be deleted: with
    its index, [delete_course] raises [KeyError] before it has written
    anything, so that the record and every collection stay as they were.
    No other exception leaves [delete_course]: it returns normally or
    raises this [KeyError]. *)
Theorem delete_course_without_code (st : session_state) (index : Z) :
  (∀ c, (0 ≤ index)%Z → courses st !! Z.to_nat index = Some c → c !! "code" = None →
        delete_course index st = (inl (KeyError "code"), st)) ∧
  ((delete_course index st).1 = inr tt ∨
   delete_course index st = (inl (KeyError "code"), st)).
Proof.
  split.
  - intros c H0 Hc Hcode. unfold delete_course. run.
    rewrite (in_range_lookup _ _ _ H0 Hc). unfold list_getitem. rewrite Hc.
    unfold dict_getitem. rewrite Hcode. reflexivity.
  - destruct (delete_course_cases st index) as [-> | [-> | (c & code & _ & _ & _ & ->)]];
      [left | right | left]; reflexivity.
Qed.

(** X12, after a course without a code was added behind the seven default
    courses. *)
Lemma delete_course_without_code_witness :
  delete_course 7 (add_course ∅ initial_session_state).2
  = (inl (KeyError "code"), (add_course ∅ initial_session_state).2).
Proof.
  apply (proj1 (delete_course_without_code (add_course ∅ initial_session_state).2 7) ∅);
    [lia | reflexivity | reflexivity].
Defined.

(** X13. After [delete_course] the later courses have moved up: the course
    that stood behind the deleted one now stands at its index, so that a
    second call with the same index deletes that course; only when the
    deleted course was the last one is the second call out of range and
    ignored. *)
Theorem delete_course_shifts (st : session_state) (index : Z) (c : dict) (course_code : value) :
  (0 ≤ index)%Z →
  courses st !! Z.to_nat index = Some c →
  c !! "code" = Some course_code →
  let st' := (delete_course index st).2 in
  courses st' !! Z.to_nat index = courses st !! S (Z.to_nat index) ∧
  S (length (courses st')) = length (courses st) ∧
  (courses st !! S (Z.to_nat index) = None → delete_course index st' = (inr tt, st')).
Proof.
  intros H0 Hc Hcode st'. subst st'.
  rewrite (delete_course_run st index c course_code H0 Hc Hcode). simpl.
  split; [apply list_lookup_delete_ge; lia|].
  apply lookup_lt_Some in Hc as Hlt.
  split; [rewrite length_delete by eauto; lia|].
  intros Hlast. apply lookup_ge_None in Hlast.
  unfold delete_course. run.
  assert (in_range index (delete (Z.to_nat index) (courses st)) = false) as ->.
  { apply in_range_false. rewrite length_delete by eauto. lia. }
  reflexivity.
Qed.

(** X13, deleting the first default course: the second one is first now. *)
Lemma delete_course_shifts_witness :
  courses (delete_course 0 initial_session_state).2 !! 0%nat
  = Some (course "BSD 2143" "Operational Research" 60 40).
Proof.
  apply (proj1 (delete_course_shifts initial_session_state 0
                  (course "BSD 1323" "Storytelling & Data Visualization" 60 40)
                  (VStr "BSD 1323") (Z.le_refl 0) eq_refl eq_refl)).
Defined.




(** ** The accessors and the calculator *)

(** X15. With an empty course list the table of [get_courses_df] has no
    columns, so that [calculate_current_grade] on it raises [KeyError] for
    every code and every carry-marks table instead of returning 0; the
    table is [empty], which is what the caller in [analytics_tab] tests
    before it calls. *)
Theorem no_courses_KeyError
    (st : session_state) (course_code : value) (carry_marks_df : DataFrame) :
  courses st = [] →
  ∃ courses_df, get_courses_df st = (inr courses_df, st) ∧
    empty courses_df = true ∧
    calculate_current_grade course_code (carry_marks_df, courses_df)
    = (inl (KeyError "code"), (carry_marks_df, courses_df)).
Proof.
  intros H. unfold get_courses_df. run. rewrite H.
  eexists. split; [reflexivity|]. split; [reflexivity|].
  apply calculate_current_grade_no_code_column. simpl. set_solver.
Qed.

(** X15, in the session without courses, on the two quizzes. *)
Lemma no_courses_KeyError_witness :
  ∃ courses_df,
    get_courses_df session_without_courses = (inr courses_df, session_without_courses) ∧
    calculate_current_grade (VStr "BSD 1323") (pd_DataFrame two_quizzes, courses_df)
    = (inl (KeyError "code"), (pd_DataFrame two_quizzes, courses_df)).
Proof.
  destruct (no_courses_KeyError session_without_courses (VStr "BSD 1323")
              (pd_DataFrame two_quizzes) eq_refl) as (df & Hdf & _ & Hrun).
  exists df. split; [exact Hdf | exact Hrun].
Defined.

(** ** What holds in every state *)

Lemma Forall_filter_keeps {A} (P : A → Prop) (Q : A → Prop) `{∀ x, Decision (Q x)}
    (l : list A) :
  Forall P l → Forall P (filter Q l).
Proof.
  rewrite !Forall_forall. intros H0 x Hx. apply list_elem_of_filter in Hx as [_ Hx]. auto.
Qed.

Lemma exec_keeps_dated (o : op) (st : session_state) :
  Forall dated (carry_marks st) → Forall dated (carry_marks (exec o st).2).
Proof.
  intros H. destruct o as [d | i d | i | today d | d | i s | i ]; simpl.
  - exact H.
  - unfold update_course. run. destruct (in_range i (courses st)); exact H.
  - destruct (delete_course_cases st i) as [-> | [-> | (c & code & _ & _ & _ & ->)]];
      try exact H.
    simpl. apply Forall_filter_keeps, H.
  - apply Forall_app. split; [exact H|]. apply Forall_singleton.
    exists today. apply lookup_insert_eq.
  - exact H.
  - unfold update_assignment_status. run. destruct (in_range i (assignments st)); exact H.
  - unfold delete_assignment. run. destruct (in_range i (assignments st)); exact H.
Qed.

(** X16. In every state a session reaches through the operations of the
    store, each carry mark carries a [date_added] string, since
    [add_carry_mark] is the only operation that stores one; so the table of
    [get_carry_marks_df] always has a [date_added] column. *)
Theorem carry_marks_always_dated (st : session_state) :
  reachable st →
  (∀ e, e ∈ carry_marks st → ∃ day, e !! "date_added" = Some (VStr day)) ∧
  ∃ carry_marks_df, get_carry_marks_df st = (inr carry_marks_df, st) ∧
                    "date_added" ∈ columns carry_marks_df.
Proof.
  intros Hst.
  assert (Forall dated (carry_marks st)) as Hall.
  { induction Hst as [|st o Hst IH]; [constructor | apply exec_keeps_dated, IH]. }
  split; [apply Forall_forall, Hall|].
  unfold get_carry_marks_df. run. destruct (carry_marks st) as [|e l] eqn:E.
  - eexists. split; [reflexivity | compute_done].
  - eexists. split; [reflexivity|].
    apply Forall_cons in Hall as [[day Hday] _].
    eapply pd_DataFrame_column; [left | rewrite Hday; eauto].
Qed.

Lemma session_with_quiz_reachable : reachable session_with_quiz.
Proof.
  apply (reachable_step initial_session_state (AddCarryMark "2024-01-15" first_quiz)),
    reachable_initial.
Qed.

(** X16, in the session with one quiz. *)
Lemma carry_marks_always_dated_witness :
  reachable session_with_quiz ∧
  ∃ carry_marks_df,
    get_carry_marks_df session_with_quiz = (inr carry_marks_df, session_with_quiz) ∧
    "date_added" ∈ columns carry_marks_df.
Proof.
  split; [exact session_with_quiz_reachable|].
  exact (proj2 (carry_marks_always_dated session_with_quiz session_with_quiz_reachable)).
Defined.

Lemma exec_keeps_untouched (o : op) (st : session_state) :
  final_exams st = [] →
  final_exams (exec o st).2 = [] ∧ theme_color (exec o st).2 = theme_color st.
Proof.
  intros H. destruct o as [d | i d | i | today d | d | i s | i ]; simpl.
  - done.
  - unfold update_course. run. destruct (in_range i (courses st)); done.
  - destruct (delete_course_cases st i) as [-> | [-> | (c & code & _ & _ & _ & ->)]];
      try done.
    simpl. rewrite H. done.
  - done.
  - done.
  - unfold update_assignment_status. run. destruct (in_range i (assignments st)); done.
  - unfold delete_assignment. run. destruct (in_range i (assignments st)); done.
Qed.

(** X17. No operation of the store adds a final exam or sets the theme
    colour: in every state a session reaches through them, [final_exams]
    is empty and [theme_color] is the initial "#1f77b4", so that the
    final-exam part of the cascade of [delete_course] has nothing to
    remove. *)
Theorem final_exams_never_written (st : session_state) :
  reachable st → final_exams st = [] ∧ theme_color st = "#1f77b4"%string.
Proof.
  intros Hst. induction Hst as [|st o Hst [IH1 IH2]]; [done|].
  destruct (exec_keeps_untouched o st IH1) as [H1 H2]. split; [exact H1 | congruence].
Qed.

(** X17, in the session with one quiz. *)
Lemma final_exams_never_written_witness :
  final_exams session_with_quiz = [] ∧ theme_color session_with_quiz = "#1f77b4"%string.
Proof.
  exact (final_exams_never_written session_with_quiz session_with_quiz_reachable).
Defined.

(** ** get_weekly_workload, further *)

Lemma setitem_absorb (df : DataFrame) (l1 l2 : string) (c1 c2 : list value) :
  l1 ≠ l2 →
  setitem l1 c1 (setitem l2 c2 (setitem l1 c1 df)) = setitem l2 c2 (setitem l1 c1 df).
Proof.
  intros Hne. unfold setitem. simpl. f_equal.
  - apply set_eq. intros x. rewrite !elem_of_union. tauto.
  - revert c1 c2. induction (rows df) as [|r l IH]; intros [|a c1] [|b c2]; simpl; try done.
    f_equal; [|apply IH].
    rewrite (insert_insert_ne _ l1 l2) by done. rewrite insert_insert_eq. reflexivity.
Qed.

Section WeeklyWorkloadAgain.

Variable to_datetime_str : string → option Z.

Lemma to_datetime_again (cells : list (option value)) (stamps : list value) :
  to_datetime to_datetime_str cells = inr stamps →
  to_datetime to_datetime_str (Some <$> stamps) = inr stamps.
Proof.
  revert stamps. induction cells as [|cell rest IH]; intros stamps; simpl.
  - intros [= <-]. reflexivity.
  - destruct (to_datetime to_datetime_str rest) as [e|vs];
      destruct cell as [[| s | q | ns | | w]|]; simpl;
      try destruct (to_datetime_str s); try discriminate;
      intros [= <-]; rewrite fmap_cons; simpl; rewrite (IH vs eq_refl); reflexivity.
Qed.

(** X18. What [get_weekly_workload] writes into its table, it writes once:
    called again on the table the first call left behind (its due dates
    parsed), it returns the same summary, or raises the same exception of
    the grouping, and leaves that table as it is. *)
Theorem get_weekly_workload_again
    (assignments_df : DataFrame) (due : list (option value)) (stamps : list value) :
  empty assignments_df = false →
  getitem assignments_df "due_date" = inr due →
  to_datetime to_datetime_str due = inr stamps →
  get_weekly_workload to_datetime_str (get_weekly_workload to_datetime_str assignments_df).2
  = get_weekly_workload to_datetime_str assignments_df.
Proof.
  intros E Hd Ht.
  assert (length stamps = length (rows assignments_df)) as Hlen.
  { rewrite (to_datetime_length _ _ _ Ht). eapply getitem_length, Hd. }
  rewrite (get_weekly_workload_parsed _ _ _ _ E Hd Ht). simpl snd.
  set (weeks := to_period_W (Some <$> stamps)).
  assert (length weeks = length (rows (setitem "due_date" stamps assignments_df))) as Hlen'.
  { unfold weeks, to_period_W. rewrite !length_fmap, setitem_length; done. }
  rewrite (get_weekly_workload_parsed to_datetime_str _ (Some <$> stamps) stamps).
  - fold weeks. rewrite !setitem_absorb by done. reflexivity.
  - apply setitem_empty; [exact Hlen'|]. apply setitem_empty; assumption.
  - rewrite getitem_setitem_ne by done. apply getitem_setitem_eq, Hlen.
  - eapply to_datetime_again, Ht.
Qed.

(** X19. How [get_weekly_workload] fails on a table with rows. Without a
    [due_date] column it raises [KeyError], and with a due date that does
    not parse [ValueError], the table untouched in both cases. Without a
    [title] or a [status] column it raises [KeyError] only in the grouping,
    after both column assignments: the exception leaves a table whose
    [due_date] and [week] columns are already rewritten. *)
Theorem get_weekly_workload_raises (assignments_df : DataFrame) :
  empty assignments_df = false →
  ("due_date" ∉ columns assignments_df →
   get_weekly_workload to_datetime_str assignments_df
   = (inl (KeyError "due_date"), assignments_df)) ∧
  (∀ due, getitem assignments_df "due_date" = inr due →
     to_datetime to_datetime_str due = inl ValueError →
     get_weekly_workload to_datetime_str assignments_df = (inl ValueError, assignments_df)) ∧
  (∀ due stamps, getitem assignments_df "due_date" = inr due →
     to_datetime to_datetime_str due = inr stamps →
     let written := setitem "week" (to_period_W (Some <$> stamps))
                      (setitem "due_date" stamps assignments_df) in
     ("title" ∉ columns assignments_df →
      get_weekly_workload to_datetime_str assignments_df = (inl (KeyError "title"), written)) ∧
     ("title" ∈ columns assignments_df → "status" ∉ columns assignments_df →
      get_weekly_workload to_datetime_str assignments_df = (inl (KeyError "status"), written))).
Proof.
  intros E. split; [|split].
  - intros H. apply get_weekly_workload_no_due_date; assumption.
  - intros due Hd Ht. eapply get_weekly_workload_unparsed; eassumption.
  - intros due stamps Hd Ht written.
    rewrite (get_weekly_workload_parsed _ _ _ _ E Hd Ht). fold written.
    assert ("week" ∈ columns written) as Hw by (simpl; set_solver).
    assert (∀ label : string, label ≠ "due_date"%string → label ≠ "week"%string →
            (label ∈ columns written ↔ label ∈ columns assignments_df)) as Hcols.
    { intros label H1 H2. simpl. rewrite !elem_of_union, !elem_of_singleton. tauto. }
    unfold groupby_week_agg. rewrite (bool_decide_eq_true_2 _ Hw). simpl negb. cbv iota.
    split.
    + intros Hti.
      rewrite bool_decide_eq_false_2 by (intros Hin; apply Hcols in Hin; done).
      reflexivity.
    + intros Hti Hs.
      rewrite bool_decide_eq_true_2 by (apply Hcols; done).
      rewrite bool_decide_eq_false_2 by (intros Hin; apply Hcols in Hin; done).
      reflexivity.
Qed.

End WeeklyWorkloadAgain.

(** X18, on the table of one assignment. *)
Lemma get_weekly_workload_again_witness :
  get_weekly_workload to_datetime_iso
    (get_weekly_workload to_datetime_iso (pd_DataFrame one_assignment)).2
  = get_weekly_workload to_datetime_iso (pd_DataFrame one_assignment).
Proof.
  apply (get_weekly_workload_again to_datetime_iso (pd_DataFrame one_assignment)
           [Some (VStr "2024-01-15")] [VTimestamp 1705276800000000000]); compute_done.
Defined.

(** X19, on a table of one assignment without a title: the call raises,
    and the table has its [week] column. *)
Lemma get_weekly_workload_raises_witness :
  get_weekly_workload to_datetime_iso (pd_DataFrame untitled_assignment)
  = (inl (KeyError "title"),
     setitem "week" (to_period_W (Some <$> [VTimestamp 1705276800000000000]))
       (setitem "due_date" [VTimestamp 1705276800000000000]
          (pd_DataFrame untitled_assignment))).
Proof.
  apply (proj1 (proj2 (proj2 (get_weekly_workload_raises to_datetime_iso
                  (pd_DataFrame untitled_assignment) eq_refl))
                  [Some (VStr "2024-01-15")] [VTimestamp 1705276800000000000]
                  ltac:(compute_done) ltac:(compute_done))).
  compute_done.
Defined.

(** ** The letter grade of a course in analytics_tab *)


